(** * github-create-api.py: a shallow embedding of the repository creator

    The script is a linear sequence of external invocations.  It is modelled
    as a program in a small state-and-exception monad whose state is the
    trace of observable events (working-directory change, printed lines,
    prompts, subprocess invocations) and the remaining lines of standard
    input.  The outside world (which executables exist, what each
    subprocess returns) is a record [world].

    Text is modelled as Rocq [string]s, i.e. sequences of 8-bit characters;
    the characters of user input are read as code points 0..255, and the
    literals of the script keep their UTF-8 bytes. *)

From Stdlib Require Import String Ascii List ZArith Bool Lia.
Import ListNotations.
Set Warnings "-register-all".

Open Scope list_scope.
Open Scope string_scope.

(* ------------------------------------------------------------------ *)
(** ** Python string helpers *)

Module Py.

Definition nl : string := String (ascii_of_nat 10) EmptyString.
Definition dq : string := String (ascii_of_nat 34) EmptyString.
Definition sq : string := String (ascii_of_nat 39) EmptyString.
Definition bs : string := String (ascii_of_nat 92) EmptyString.

(** [str.isspace] restricted to code points 0..255. *)
Definition is_space (c : ascii) : bool :=
  let n := nat_of_ascii c in
  (((9 <=? n) && (n <=? 13)) || ((28 <=? n) && (n <=? 32))
  || (n =? 133) || (n =? 160))%nat.

Fixpoint lstrip (s : string) : string :=
  match s with
  | EmptyString => EmptyString
  | String c r => if is_space c then lstrip r else s
  end.

Definition rev_str (s : string) : string :=
  string_of_list_ascii (rev (list_ascii_of_string s)).

(** [str.strip()] *)
Definition strip (s : string) : string := rev_str (lstrip (rev_str (lstrip s))).

Fixpoint starts_with (p s : string) : bool :=
  match p, s with
  | EmptyString, _ => true
  | String a p', String b s' => Ascii.eqb a b && starts_with p' s'
  | _, _ => false
  end.

(** [sub in s] for two strings. *)
Fixpoint contains (sub s : string) : bool :=
  match s with
  | EmptyString => starts_with sub s
  | String _ r => starts_with sub s || contains sub r
  end.

(** [s * n] *)
Fixpoint repeat_str (s : string) (n : nat) : string :=
  match n with
  | O => EmptyString
  | S k => s ++ repeat_str s k
  end.

Definition hex_digit (n : nat) : string :=
  String (ascii_of_nat (if n <? 10 then 48 + n else 87 + n)%nat) EmptyString.

(** Four lower-case hex digits of a code point below 256. *)
Definition hex4 (n : nat) : string :=
  "00" ++ hex_digit (n / 16)%nat ++ hex_digit (n mod 16)%nat.

Definition hex2 (n : nat) : string := hex_digit (n / 16)%nat ++ hex_digit (n mod 16)%nat.

Definition digit_str (n : nat) : string :=
  String (ascii_of_nat (48 + n)%nat) EmptyString.

(** Decimal rendering of a natural number (fuel: one digit per step). *)
Fixpoint nat_dec_aux (fuel n : nat) (acc : string) : string :=
  match fuel with
  | O => acc
  | S f => let acc' := digit_str (n mod 10)%nat ++ acc in
           if (n <? 10)%nat then acc' else nat_dec_aux f (n / 10)%nat acc'
  end.

Definition z_dec (z : Z) : string :=
  match z with
  | Z0 => "0"
  | Zpos p => nat_dec_aux (Pos.size_nat p) (Pos.to_nat p) EmptyString
  | Zneg p => "-" ++ nat_dec_aux (Pos.size_nat p) (Pos.to_nat p) EmptyString
  end.

End Py.

(* ------------------------------------------------------------------ *)
(** ** JSON values, [json.dumps], [str()] and [json.loads]

    A JSON object is kept as a Python dict: an association list with
    pairwise distinct keys, in insertion order.  Numbers are integers
    (the payloads of the script contain none; see [loads] for floats). *)

Module Json.
Import Py.

Inductive json : Type :=
| JNull
| JBool (b : bool)
| JNum (z : Z)
| JStr (s : string)
| JArr (items : list json)
| JObj (members : list (string * json)).

Fixpoint join (sep : string) (l : list string) : string :=
  match l with
  | [] => EmptyString
  | [x] => x
  | x :: r => x ++ sep ++ join sep r
  end.

(** The escaping of [json.dumps] with [ensure_ascii=True]. *)
Definition dumps_char (c : ascii) : string :=
  let n := nat_of_ascii c in
  if (n =? 34)%nat then bs ++ dq
  else if (n =? 92)%nat then bs ++ bs
  else if (n =? 10)%nat then bs ++ "n"
  else if (n =? 13)%nat then bs ++ "r"
  else if (n =? 9)%nat then bs ++ "t"
  else if (n =? 8)%nat then bs ++ "b"
  else if (n =? 12)%nat then bs ++ "f"
  else if ((n <? 32) || (126 <? n))%nat then bs ++ "u" ++ hex4 n
  else String c EmptyString.

Fixpoint dumps_str_body (s : string) : string :=
  match s with
  | EmptyString => EmptyString
  | String c r => dumps_char c ++ dumps_str_body r
  end.

Definition dumps_str (s : string) : string := dq ++ dumps_str_body s ++ dq.

(** [json.dumps] with the default separators [", "] and [": "]. *)
Fixpoint dumps (v : json) : string :=
  match v with
  | JNull => "null"
  | JBool true => "true"
  | JBool false => "false"
  | JNum z => z_dec z
  | JStr s => dumps_str s
  | JArr l => "[" ++ join ", " (map dumps l) ++ "]"
  | JObj m => "{" ++ join ", " (map (fun kv => dumps_str (fst kv) ++ ": " ++ dumps (snd kv)) m) ++ "}"
  end.

(** [repr] of a str: single quotes unless the text has a single quote and
    no double quote; non-printable characters as [\xNN]. *)
Definition repr_char (q : nat) (c : ascii) : string :=
  let n := nat_of_ascii c in
  if (n =? 92)%nat then bs ++ bs
  else if (n =? q)%nat then bs ++ String c EmptyString
  else if (n =? 10)%nat then bs ++ "n"
  else if (n =? 13)%nat then bs ++ "r"
  else if (n =? 9)%nat then bs ++ "t"
  else if ((n <? 32) || ((127 <=? n) && (n <=? 160)) || (n =? 173))%nat
  then bs ++ "x" ++ hex2 n
  else String c EmptyString.

Fixpoint repr_body (q : nat) (s : string) : string :=
  match s with
  | EmptyString => EmptyString
  | String c r => repr_char q c ++ repr_body q r
  end.

Definition repr_str (s : string) : string :=
  if contains sq s && negb (contains dq s)
  then dq ++ repr_body 34 s ++ dq
  else sq ++ repr_body 39 s ++ sq.

Fixpoint repr (v : json) : string :=
  match v with
  | JNull => "None"
  | JBool true => "True"
  | JBool false => "False"
  | JNum z => z_dec z
  | JStr s => repr_str s
  | JArr l => "[" ++ join ", " (map repr l) ++ "]"
  | JObj m => "{" ++ join ", " (map (fun kv => repr_str (fst kv) ++ ": " ++ repr (snd kv)) m) ++ "}"
  end.

(** [str(v)] (what an f-string interpolates). *)
Definition py_str (v : json) : string :=
  match v with
  | JStr s => s
  | _ => repr v
  end.

(** Python equality of a decoded value with a str. *)
Definition eq_str (v : json) (s : string) : bool :=
  match v with
  | JStr s' => String.eqb s' s
  | _ => false
  end.

(** [d[k] = v] on a dict. *)
Fixpoint dict_set (m : list (string * json)) (k : string) (v : json) : list (string * json) :=
  match m with
  | [] => [(k, v)]
  | (k', v') :: r => if String.eqb k k' then (k, v) :: r else (k', v') :: dict_set r k v
  end.

Fixpoint dict_lookup (m : list (string * json)) (k : string) : option json :=
  match m with
  | [] => None
  | (k', v) :: r => if String.eqb k k' then Some v else dict_lookup r k
  end.

(** [json.loads]: the decoder of Python's [json] module, [None] standing for
    [JSONDecodeError].  Inputs it does not model ([\u] escapes above 255,
    numbers with a fraction or an exponent, [NaN] and [Infinity], which
    Python decodes to floats) are also [None]. *)

Definition is_ws (c : ascii) : bool :=
  let n := nat_of_ascii c in ((n =? 32) || (n =? 9) || (n =? 10) || (n =? 13))%nat.

Fixpoint skip_ws (s : string) : string :=
  match s with
  | String c r => if is_ws c then skip_ws r else s
  | EmptyString => s
  end.

Definition is_char (n : nat) (c : ascii) : bool := (nat_of_ascii c =? n)%nat.

Definition hex_val (c : ascii) : option nat :=
  let n := nat_of_ascii c in
  if ((48 <=? n) && (n <=? 57))%nat then Some (n - 48)%nat
  else if ((97 <=? n) && (n <=? 102))%nat then Some (n - 87)%nat
  else if ((65 <=? n) && (n <=? 70))%nat then Some (n - 55)%nat
  else None.

Definition hex4_val (a b c d : ascii) : option nat :=
  match hex_val a, hex_val b, hex_val c, hex_val d with
  | Some a, Some b, Some c, Some d => Some (((a * 16 + b) * 16 + c) * 16 + d)%nat
  | _, _, _, _ => None
  end.

Definition simple_escape (c : ascii) : option ascii :=
  let n := nat_of_ascii c in
  if (n =? 34)%nat then Some c
  else if (n =? 92)%nat then Some c
  else if (n =? 47)%nat then Some c
  else if (n =? 98)%nat then Some (ascii_of_nat 8)
  else if (n =? 102)%nat then Some (ascii_of_nat 12)
  else if (n =? 110)%nat then Some (ascii_of_nat 10)
  else if (n =? 114)%nat then Some (ascii_of_nat 13)
  else if (n =? 116)%nat then Some (ascii_of_nat 9)
  else None.

(** The body of a string literal, after its opening quote. *)
Fixpoint parse_str_body (s : string) : option (string * string) :=
  match s with
  | EmptyString => None
  | String c r =>
      if is_char 34 c then Some (EmptyString, r)
      else if is_char 92 c then
        match r with
        | String e r1 =>
            if is_char 117 e then
              match r1 with
              | String h1 (String h2 (String h3 (String h4 r2))) =>
                  match hex4_val h1 h2 h3 h4 with
                  | Some n =>
                      if (n <? 256)%nat then
                        match parse_str_body r2 with
                        | Some (t, rest) => Some (String (ascii_of_nat n) t, rest)
                        | None => None
                        end
                      else None
                  | None => None
                  end
              | _ => None
              end
            else
              match simple_escape e with
              | Some d =>
                  match parse_str_body r1 with
                  | Some (t, rest) => Some (String d t, rest)
                  | None => None
                  end
              | None => None
              end
        | EmptyString => None
        end
      else if (nat_of_ascii c <? 32)%nat then None
      else
        match parse_str_body r with
        | Some (t, rest) => Some (String c t, rest)
        | None => None
        end
  end.

Definition is_digit (c : ascii) : bool :=
  let n := nat_of_ascii c in ((48 <=? n) && (n <=? 57))%nat.

Fixpoint read_digits (s : string) (acc : Z) : Z * string :=
  match s with
  | String c r =>
      if is_digit c then read_digits r (acc * 10 + Z.of_nat (nat_of_ascii c - 48))
      else (acc, s)
  | EmptyString => (acc, s)
  end.

Definition frac_or_exp (s : string) : bool :=
  match s with
  | String c _ => is_char 46 c || is_char 101 c || is_char 69 c
  | EmptyString => false
  end.

(** An optional minus sign, then 0 or digits not starting with 0; a
    fraction or an exponent is rejected. *)
Definition parse_number (s : string) : option (json * string) :=
  let '(sign, s1) :=
    match s with
    | String c r => if is_char 45 c then ((-1)%Z, r) else (1%Z, s)
    | EmptyString => (1%Z, s)
    end in
  match s1 with
  | String c r =>
      if is_char 48 c then
        if frac_or_exp r then None else Some (JNum 0, r)
      else if is_digit c then
        let '(z, r') := read_digits s1 0 in
        if frac_or_exp r' then None else Some (JNum (sign * z), r')
      else None
  | EmptyString => None
  end.

Fixpoint parse_value (fuel : nat) (s : string) {struct fuel} : option (json * string) :=
  match fuel with
  | O => None
  | S f =>
      let s := skip_ws s in
      if starts_with "null" s then Some (JNull, substring 4 (String.length s) s)
      else if starts_with "true" s then Some (JBool true, substring 4 (String.length s) s)
      else if starts_with "false" s then Some (JBool false, substring 5 (String.length s) s)
      else
        match s with
        | String c r =>
            if is_char 34 c then
              match parse_str_body r with
              | Some (t, rest) => Some (JStr t, rest)
              | None => None
              end
            else if is_char 91 c then
              match skip_ws r with
              | String d r' => if is_char 93 d then Some (JArr [], r') else parse_items f r []
              | EmptyString => None
              end
            else if is_char 123 c then
              match skip_ws r with
              | String d r' => if is_char 125 d then Some (JObj [], r') else parse_members f r []
              | EmptyString => None
              end
            else parse_number s
        | EmptyString => None
        end
  end
with parse_items (fuel : nat) (s : string) (acc : list json) {struct fuel} : option (json * string) :=
  match fuel with
  | O => None
  | S f =>
      match parse_value f s with
      | Some (v, r) =>
          match skip_ws r with
          | String d r' =>
              if is_char 44 d then parse_items f r' (acc ++ [v])
              else if is_char 93 d then Some (JArr (acc ++ [v]), r')
              else None
          | EmptyString => None
          end
      | None => None
      end
  end
with parse_members (fuel : nat) (s : string) (acc : list (string * json)) {struct fuel}
  : option (json * string) :=
  match fuel with
  | O => None
  | S f =>
      match skip_ws s with
      | String c r =>
          if is_char 34 c then
            match parse_str_body r with
            | Some (k, r1) =>
                match skip_ws r1 with
                | String d r2 =>
                    if is_char 58 d then
                      match parse_value f r2 with
                      | Some (v, r3) =>
                          let acc' := dict_set acc k v in
                          match skip_ws r3 with
                          | String e r4 =>
                              if is_char 44 e then parse_members f r4 acc'
                              else if is_char 125 e then Some (JObj acc', r4)
                              else None
                          | EmptyString => None
                          end
                      | None => None
                      end
                    else None
                | EmptyString => None
                end
            | None => None
            end
          else None
      | EmptyString => None
      end
  end.

Definition loads (s : string) : option json :=
  match parse_value (2 * String.length s + 4) s with
  | Some (v, rest) => match skip_ws rest with EmptyString => Some v | _ => None end
  | None => None
  end.

End Json.

(* ------------------------------------------------------------------ *)
(** ** The outside world, events and the script monad *)

Module Script.
Import Py Json.

(** What [subprocess.run(..., capture_output=True)] returns. *)
Record proc_result : Type := {
  returncode : Z;
  stdout : string;
  stderr : string }.

(** The environment of one run: which directories and executables exist,
    what each command line returns, and the lines on standard input. *)
Record world : Type := {
  dir_exists : string -> bool;
  has_exe : string -> bool;
  proc : list string -> proc_result;
  stdin : list string }.

Inductive event : Type :=
| EChdir (path : string)
| EPrint (line : string)
| EInput (prompt : string)
| ERun (argv : list string).

(** How a run stops early: [sys.exit(n)] or an uncaught exception. *)
Inductive stop : Type :=
| SysExit (code : Z)
| Exn (name : string).

Record st : Type := {
  trace : list event;
  input_left : list string }.

Definition M (A : Type) : Type := st -> st * (A + stop).

Definition ret {A} (a : A) : M A := fun s => (s, inl a).

Definition bind {A B} (m : M A) (k : A -> M B) : M B :=
  fun s => match m s with
           | (s', inl a) => k a s'
           | (s', inr e) => (s', inr e)
           end.

Local Notation "x <- m ;; k" := (bind m (fun x => k))
  (at level 61, m at next level, right associativity).
Local Notation "m ;; k" := (bind m (fun _ => k)) (at level 61, right associativity).

Definition emit (e : event) : M unit :=
  fun s => ({| trace := trace s ++ [e]; input_left := input_left s |}, inl tt).

Definition raise {A} (name : string) : M A := fun s => (s, inr (Exn name)).

Definition sys_exit {A} (code : Z) : M A := fun s => (s, inr (SysExit code)).

(** [try: m except: h] (a bare [except] catches every exception). *)
Definition try_except {A} (m h : M A) : M A :=
  fun s => match m s with
           | (s', inr (Exn _)) => h s'
           | r => r
           end.

Definition print (line : string) : M unit := emit (EPrint line).

(** [input(prompt)]: the next line, or [EOFError] at end of input. *)
Definition input (prompt : string) : M string :=
  emit (EInput prompt) ;;
  fun s => match input_left s with
           | [] => (s, inr (Exn "EOFError"))
           | l :: r => ({| trace := trace s; input_left := r |}, inl l)
           end.

(* ------------------------------------------------------------------ *)
(** ** Constants of the script *)

Definition project_dir : string := "/home/david/review-analysis-saas".
Definition repo_name : string := "review-insights-platform".
Definition description : string :=
  "AI-powered review management platform with zero-config setup".

Definition homepage (username : string) : string :=
  "https://" ++ username ++ ".github.io/" ++ repo_name ++ "/".

(** The dict passed to [json.dumps] in [create_repo_cmd]. *)
Definition repo_request (username : string) : json :=
  JObj [("name", JStr repo_name);
        ("description", JStr description);
        ("homepage", JStr (homepage username));
        ("private", JBool false);
        ("has_issues", JBool true);
        ("has_projects", JBool true);
        ("has_wiki", JBool false);
        ("auto_init", JBool false)].

Definition create_repo_cmd (username token : string) : list string :=
  ["curl"; "-X"; "POST";
   "-H"; "Authorization: token " ++ token;
   "-H"; "Accept: application/vnd.github.v3+json";
   "https://api.github.com/user/repos";
   "-d"; dumps (repo_request username)].

Definition repo_url (username : string) : string :=
  "https://github.com/" ++ username ++ "/" ++ repo_name ++ ".git".

Definition remote_add_cmd (username : string) : list string :=
  ["git"; "remote"; "add"; "origin"; repo_url username].

Definition push_main_cmd : list string := ["git"; "push"; "-u"; "origin"; "main"].

Definition push_pages_cmd : list string := ["git"; "push"; "origin"; "gh-pages"].

Definition topic_names : list string :=
  ["ai"; "review-management"; "saas"; "typescript"; "nextjs";
   "sentiment-analysis"; "zero-config"].

Definition topics_request : json := JObj [("names", JArr (map JStr topic_names))].

Definition topics_cmd (username token : string) : list string :=
  ["curl"; "-X"; "PUT";
   "-H"; "Authorization: token " ++ token;
   "-H"; "Accept: application/vnd.github.mercy-preview+json";
   "https://api.github.com/repos/" ++ username ++ "/" ++ repo_name ++ "/topics";
   "-d"; dumps topics_request].

Definition message_key : string := dq ++ "message" ++ dq.

Definition msg_invalid_token : string :=
  "❌ Invalid token! Please check your Personal Access Token.".
Definition msg_exists (username : string) : string :=
  "❌ Repository " ++ username ++ "/" ++ repo_name ++ " already exists!".
Definition msg_error (m : string) : string := "❌ Error: " ++ m.
Definition msg_push_failed (err : string) : string := "❌ Push failed: " ++ err.
Definition msg_recovery (username token : string) : string :=
  "git remote set-url origin https://" ++ username ++ ":" ++ token ++ "@github.com/"
  ++ username ++ "/" ++ repo_name ++ ".git".
Definition repo_line (username : string) : string :=
  "📁 Repository: https://github.com/" ++ username ++ "/" ++ repo_name.
Definition pages_line (username : string) : string :=
  "📄 Deploy Page: https://" ++ username ++ ".github.io/" ++ repo_name ++ "/".

(* ------------------------------------------------------------------ *)
(** ** The script *)

Section Program.

(** [json.loads] and the world of the run. *)
Variable json_loads : string -> option json.
Variable w : world.

(** [subprocess.run(argv, capture_output=True)]: [FileNotFoundError] when
    the executable is absent. *)
Definition run_proc (argv : list string) : M proc_result :=
  emit (ERun argv) ;;
  if has_exe w (hd EmptyString argv) then ret (proc w argv)
  else raise "FileNotFoundError".

(** The same with [check=True]. *)
Definition run_check (argv : list string) : M proc_result :=
  r <- run_proc argv ;;
  if (returncode r =? 0)%Z then ret r else raise "CalledProcessError".

Definition loads_m (s : string) : M json :=
  match json_loads s with
  | Some v => ret v
  | None => raise "JSONDecodeError"
  end.

(** [response.get(key, default)]; only a dict has [get]. *)
Definition py_get (v : json) (key : string) (default : json) : M json :=
  match v with
  | JObj m => ret (match dict_lookup m key with Some x => x | None => default end)
  | _ => raise "AttributeError"
  end.

(** [sub in v]: substring for a str, membership for a list, key for a
    dict, [TypeError] otherwise. *)
Definition py_in (sub : string) (v : json) : M bool :=
  match v with
  | JStr s => ret (contains sub s)
  | JArr l => ret (existsb (fun x => eq_str x sub) l)
  | JObj m => ret (existsb (fun kv => String.eqb (fst kv) sub) m)
  | _ => raise "TypeError"
  end.

Definition banner : M unit :=
  print "🚀 Review Insights - GitHub Repository Creator" ;;
  print (repeat_str "=" 50) ;;
  print EmptyString.

(** Lines 17-22. *)
Definition check_curl : M unit :=
  try_except (_ <- run_check ["curl"; "--version"] ;; ret tt)
             (print "❌ Error: curl is required but not installed" ;; sys_exit 1).

Definition instructions : M unit :=
  print "This script will create a GitHub repository using the GitHub API." ;;
  print "You'll need a GitHub Personal Access Token with 'repo' scope." ;;
  print EmptyString ;;
  print "📝 How to get a token:" ;;
  print "1. Go to: https://github.com/settings/tokens/new" ;;
  print "2. Give it a name (e.g., 'Review Insights Setup')" ;;
  print "3. Select scopes: ✓ repo (Full control of private repositories)" ;;
  print "4. Click 'Generate token'" ;;
  print "5. Copy the token (you won't see it again!)" ;;
  print EmptyString.

(** Lines 36-44. *)
Definition read_credentials : M (string * string) :=
  username_raw <- input "GitHub username: " ;;
  let username := strip username_raw in
  if String.eqb username EmptyString
  then (print "❌ Username is required!" ;; sys_exit 1)
  else (token_raw <- input "GitHub Personal Access Token: " ;;
        let token := strip token_raw in
        if String.eqb token EmptyString
        then (print "❌ Token is required!" ;; sys_exit 1)
        else ret (username, token)).

(** The condition of line 71. *)
Definition creation_failed (r : proc_result) : bool :=
  negb (returncode r =? 0)%Z || contains message_key (stdout r).

(** Lines 72-79: classify a failed creation, then exit. *)
Definition report_failure (username : string) (r : proc_result) : M unit :=
  response <- loads_m (stdout r) ;;
  m1 <- py_get response "message" JNull ;;
  if eq_str m1 "Bad credentials"
  then (print msg_invalid_token ;; sys_exit 1)
  else (m2 <- py_get response "message" (JStr EmptyString) ;;
        b <- py_in "already exists" m2 ;;
        if b
        then (print (msg_exists username) ;; sys_exit 1)
        else (m3 <- py_get response "message" (JStr "Unknown error") ;;
              print (msg_error (py_str m3)) ;; sys_exit 1)).

(** Lines 46-81. *)
Definition create_repo (username token : string) : M unit :=
  print (nl ++ "✅ Creating repository: " ++ username ++ "/" ++ repo_name) ;;
  print (nl ++ "📡 Creating repository...") ;;
  result <- run_proc (create_repo_cmd username token) ;;
  (if creation_failed result then report_failure username result else ret tt) ;;
  print "✅ Repository created successfully!".

(** Lines 84-107. *)
Definition link_and_push (username token : string) : M unit :=
  print (nl ++ "📤 Adding remote: " ++ repo_url username) ;;
  _ <- run_proc (remote_add_cmd username) ;;
  print "📤 Pushing main branch..." ;;
  push_result <- run_proc push_main_cmd ;;
  (if negb (returncode push_result =? 0)%Z
   then (print (msg_push_failed (stderr push_result)) ;;
         print (nl ++ "Try running manually:") ;;
         print (msg_recovery username token) ;;
         print "git push -u origin main" ;;
         sys_exit 1)
   else ret tt) ;;
  print "✅ Main branch pushed!" ;;
  print "📤 Pushing gh-pages branch..." ;;
  _ <- run_proc push_pages_cmd ;;
  print "✅ GitHub Pages branch pushed!".

(** Lines 110-121. *)
Definition add_topics (username token : string) : M unit :=
  print (nl ++ "🏷️  Adding repository topics...") ;;
  _ <- run_proc (topics_cmd username token) ;;
  print "✅ Topics added!".

(** Lines 123-140. *)
Definition summary (username : string) : M unit :=
  print (nl ++ repeat_str "=" 50) ;;
  print "🎉 SUCCESS! Your repository is now live!" ;;
  print (repeat_str "=" 50) ;;
  print EmptyString ;;
  print (repo_line username) ;;
  print (pages_line username) ;;
  print EmptyString ;;
  print "📋 Next steps:" ;;
  print ("1. Enable GitHub Pages: https://github.com/" ++ username ++ "/" ++ repo_name ++ "/settings/pages") ;;
  print "   - Source: Deploy from branch" ;;
  print "   - Branch: gh-pages → /docs" ;;
  print EmptyString ;;
  print "🚀 Deploy buttons:" ;;
  print ("Railway: https://railway.app/new/template?template=https://github.com/" ++ username ++ "/" ++ repo_name) ;;
  print ("Render: https://render.com/deploy?repo=https://github.com/" ++ username ++ "/" ++ repo_name) ;;
  print ("Vercel: https://vercel.com/new/clone?repository-url=https://github.com/" ++ username ++ "/" ++ repo_name) ;;
  print EmptyString ;;
  print "✨ Your Review Insights platform is ready to share!".

Definition main : M unit :=
  banner ;;
  check_curl ;;
  instructions ;;
  creds <- read_credentials ;;
  let '(username, token) := creds in
  create_repo username token ;;
  link_and_push username token ;;
  add_topics username token ;;
  summary username.

(** [if __name__ == "__main__": os.chdir(...); main()] *)
Definition entry : M unit :=
  emit (EChdir project_dir) ;;
  (if dir_exists w project_dir then ret tt else raise "FileNotFoundError") ;;
  main.

End Program.

(** A complete run: the events, and how it stopped ([None]: [main]
    returned). *)
Definition run (json_loads : string -> option json) (w : world)
  : list event * option stop :=
  let '(s, r) := entry json_loads w {| trace := []; input_left := stdin w |} in
  (trace s, match r with inl _ => None | inr e => Some e end).

(** The process exit status: an uncaught exception exits with 1. *)
Definition exit_status (o : option stop) : Z :=
  match o with
  | None => 0
  | Some (SysExit n) => n
  | Some (Exn _) => 1
  end.

End Script.

(* ------------------------------------------------------------------ *)
(** ** Observations on runs *)

Module Obs.
Import Py Json Script.

Definition ran (argv : list string) (tr : list event) : Prop := In (ERun argv) tr.

Definition printed (line : string) (tr : list event) : Prop := In (EPrint line) tr.

(** The subprocess invocations of a trace, in order. *)
Fixpoint runs (tr : list event) : list (list string) :=
  match tr with
  | [] => []
  | ERun argv :: r => argv :: runs r
  | _ :: r => runs r
  end.

Fixpoint argv_eqb (a b : list string) : bool :=
  match a, b with
  | [], [] => true
  | x :: a', y :: b' => String.eqb x y && argv_eqb a' b'
  | _, _ => false
  end.

Definition count_runs (argv : list string) (tr : list event) : nat :=
  List.length (filter (fun a => argv_eqb a argv) (runs tr)).

Definition starts_argv (prefix argv : list string) : bool :=
  argv_eqb (firstn (List.length prefix) argv) prefix.

Definition is_post (argv : list string) : bool := starts_argv ["curl"; "-X"; "POST"] argv.
Definition is_put (argv : list string) : bool := starts_argv ["curl"; "-X"; "PUT"] argv.

(** The HTTP requests of a trace. *)
Definition posts (tr : list event) : list (list string) := filter is_post (runs tr).
Definition puts (tr : list event) : list (list string) := filter is_put (runs tr).

Definition last_event (tr : list event) : option event := last (map Some tr) None.

Definition is_chdir (e : event) : bool :=
  match e with EChdir _ => true | _ => false end.

(** [a] occurs in the trace, and [b] occurs after it. *)
Inductive precedes (a b : event) : list event -> Prop :=
| precedes_here : forall tr, In b tr -> precedes a b (a :: tr)
| precedes_later : forall e tr, precedes a b tr -> precedes a b (e :: tr).

(** The steps whose failures the script ignores: adding the remote,
    pushing the pages branch, tagging topics. *)
Definition best_effort_cmd (argv : list string) : bool :=
  starts_argv ["git"; "remote"; "add"] argv || argv_eqb argv push_pages_cmd || is_put argv.

(** Two worlds that differ at most in what the best-effort steps return. *)
Record same_but_best_effort (w w' : world) : Prop := {
  same_dirs : dir_exists w' = dir_exists w;
  same_exes : has_exe w' = has_exe w;
  same_stdin : stdin w' = stdin w;
  same_proc : forall argv, best_effort_cmd argv = false -> proc w' argv = proc w argv }.

(** Full success in the sense of the spec: the directory exists, [curl]
    is there, both inputs are non-blank, the creation response is a
    success, and [git] is there and the main branch push exits with 0. *)
Definition full_success (w : world) : bool :=
  dir_exists w project_dir && has_exe w "curl"
  && (returncode (proc w ["curl"; "--version"]) =? 0)%Z
  && match stdin w with
     | l1 :: l2 :: _ =>
         negb (String.eqb (strip l1) EmptyString)
         && negb (String.eqb (strip l2) EmptyString)
         && negb (creation_failed (proc w (create_repo_cmd (strip l1) (strip l2))))
         && has_exe w "git"
         && (returncode (proc w push_main_cmd) =? 0)%Z
     | _ => false
     end.

(** The message field as the claims read it: absent, or a string. *)
Definition message_field_ok (m : list (string * json)) : Prop :=
  dict_lookup m "message" = None \/ exists msg, dict_lookup m "message" = Some (JStr msg).

Definition message_text (m : list (string * json)) : option string :=
  match dict_lookup m "message" with
  | Some (JStr msg) => Some msg
  | _ => None
  end.

(** The three user-facing messages of a failed creation. *)
Definition classified_message (username : string) (msg : option string) : string :=
  match msg with
  | Some s =>
      if String.eqb s "Bad credentials" then msg_invalid_token
      else if contains "already exists" s then msg_exists username
      else msg_error s
  | None => msg_error "Unknown error"
  end.

(** The checks before the prompts pass: the directory exists and
    [curl --version] runs and exits with 0. *)
Definition setup_ok (w : world) : bool :=
  dir_exists w project_dir && has_exe w "curl"
  && (returncode (proc w ["curl"; "--version"]) =? 0)%Z.

(** The prompts shown by [input], in order. *)
Definition input_prompts (tr : list event) : list string :=
  flat_map (fun e => match e with EInput p => [p] | _ => [] end) tr.

(** Two events of runs that differ only in the token [t] / [t']: equal,
    or the recovery line, the creation POST or the topics PUT, each built
    with the respective token. *)
Definition token_variant (u t t' : string) (e e' : event) : Prop :=
  e = e'
  \/ (e = EPrint (msg_recovery u t) /\ e' = EPrint (msg_recovery u t'))
  \/ (e = ERun (create_repo_cmd u t) /\ e' = ERun (create_repo_cmd u t'))
  \/ (e = ERun (topics_cmd u t) /\ e' = ERun (topics_cmd u t')).

End Obs.

(* ------------------------------------------------------------------ *)
(** ** Concrete runs *)

Module Scenarios.
Import Py Json Script Obs.

Definition ok_result : proc_result :=
  {| returncode := 0; stdout := EmptyString; stderr := EmptyString |}.

(** Everything is installed, the operator types [alice] and a token, the
    creation POST returns [post] and the main branch push returns [push];
    every other command exits with 0. *)
Definition world_with (post push : proc_result) : world :=
  {| dir_exists := fun _ => true;
     has_exe := fun _ => true;
     proc := fun argv =>
       if is_post argv then post
       else if argv_eqb argv push_main_cmd then push
       else ok_result;
     stdin := [" alice "; "ghp_token"] |}.

Definition created : proc_result :=
  {| returncode := 0;
     stdout := "{" ++ dq ++ "id" ++ dq ++ ": 1, " ++ dq ++ "full_name" ++ dq ++ ": "
               ++ dq ++ "alice/review-insights-platform" ++ dq ++ "}";
     stderr := EmptyString |}.

Definition bad_credentials : proc_result :=
  {| returncode := 0;
     stdout := "{" ++ dq ++ "message" ++ dq ++ ": " ++ dq ++ "Bad credentials" ++ dq ++ ", "
               ++ dq ++ "status" ++ dq ++ ": " ++ dq ++ "401" ++ dq ++ "}";
     stderr := EmptyString |}.

(** A response whose message field is a number. *)
Definition numeric_message : proc_result :=
  {| returncode := 0;
     stdout := "{" ++ dq ++ "message" ++ dq ++ ": 42}";
     stderr := EmptyString |}.

(** [curl] could not connect: exit code 7 and nothing on stdout. *)
Definition no_connection : proc_result :=
  {| returncode := 7; stdout := EmptyString; stderr := EmptyString |}.

Definition push_rejected : proc_result :=
  {| returncode := 128; stdout := EmptyString;
     stderr := "fatal: Authentication failed" |}.

Definition w_success : world := world_with created ok_result.
Definition w_bad_credentials : world := world_with bad_credentials ok_result.
Definition w_numeric_message : world := world_with numeric_message ok_result.
Definition w_no_connection : world := world_with no_connection ok_result.
Definition w_push_rejected : world := world_with created push_rejected.

(** The operator enters only spaces as username. *)
Definition w_blank_user : world :=
  {| dir_exists := fun _ => true;
     has_exe := fun _ => true;
     proc := proc w_success;
     stdin := ["   "; "ghp_token"] |}.

(** The same world with other standard input. *)
Definition with_stdin (w : world) (lines : list string) : world :=
  {| dir_exists := dir_exists w; has_exe := has_exe w; proc := proc w; stdin := lines |}.

Definition w_no_curl : world :=
  {| dir_exists := fun _ => true;
     has_exe := fun p => negb (String.eqb p "curl");
     proc := proc w_success;
     stdin := stdin w_success |}.

Definition w_no_git : world :=
  {| dir_exists := fun _ => true;
     has_exe := fun p => negb (String.eqb p "git");
     proc := proc w_success;
     stdin := stdin w_success |}.

Definition w_one_line : world := with_stdin w_success ["alice"].
Definition w_blank_token : world := with_stdin w_success ["alice"; "  "].
Definition w_spaced : world := with_stdin w_success ["alice"; " ghp_token  "; "extra"].
Definition w_other_token : world := with_stdin w_success [" alice "; "ghp_other"].

(** A creation response that is a JSON list mentioning the key. *)
Definition list_body : proc_result :=
  {| returncode := 0; stdout := "[" ++ dq ++ "message" ++ dq ++ "]"; stderr := EmptyString |}.

Definition null_message : proc_result :=
  {| returncode := 22; stdout := "{" ++ dq ++ "message" ++ dq ++ ": null}";
     stderr := EmptyString |}.

Definition list_message : proc_result :=
  {| returncode := 0;
     stdout := "{" ++ dq ++ "message" ++ dq ++ ": [" ++ dq ++ "already exists" ++ dq ++ "]}";
     stderr := EmptyString |}.

Definition dict_message : proc_result :=
  {| returncode := 0;
     stdout := "{" ++ dq ++ "message" ++ dq ++ ": {" ++ dq ++ "code" ++ dq ++ ": 1}}";
     stderr := EmptyString |}.

Definition w_list_body : world := world_with list_body ok_result.
Definition w_null_message : world := world_with null_message ok_result.
Definition w_list_message : world := world_with list_message ok_result.
Definition w_dict_message : world := world_with dict_message ok_result.

End Scenarios.

(* ------------------------------------------------------------------ *)
(** ** Proofs *)

Module Proofs.
Import Py Json Script Obs Scenarios.

(** Split on the next undecided test of the script; a value still being
    computed is left alone (its own tests come first). *)
Ltac stuck_head x :=
  match x with
  | context [match ?y with _ => _ end] => idtac
  end.

Ltac case_step :=
  match goal with
  | |- context [match ?x with _ => _ end] =>
      tryif stuck_head x then fail
      else tryif (assert_fails (idtac; match x with context [?v] => is_var v end))
      then
        (* a closed test is evaluated *)
        let v := eval vm_compute in x in change x with v
      else lazymatch type of x with
           | prod _ _ => fail
           | _ =>
               lazymatch x with
               | has_exe ?w (hd ?d ?argv) =>
                   (* record the test under the program name it looks up *)
                   let h := eval lazy in (hd d argv) in
                   let E := fresh "Hexe" in
                   destruct x eqn:E;
                   lazymatch type of E with
                   | _ = ?b => change (has_exe w h = b) in E
                   end
               | _ => destruct x eqn:?
               end
           end
  end.

(** Symbolic execution: unfold the monad and the steps of the script, and
    nothing else (the string functions stay folded). *)
Ltac exec :=
  cbv beta iota zeta delta [run entry main banner check_curl instructions
    read_credentials create_repo report_failure link_and_push add_topics summary
    run_check run_proc loads_m py_get py_in input print emit try_except
    sys_exit raise bind ret trace input_left fst snd app exit_status
    andb negb eq_str].

(** A branch whose tests contradict each other is closed at once. *)
Ltac prune :=
  try solve [exfalso; intuition congruence].

Ltac run_cases_with t :=
  exec; try t;
  repeat (case_step; prune; exec; try t).

Ltac run_cases := run_cases_with idtac.

(** C2: when the username line is blank, or a token line is read and is
    blank, the run exits with status 1 and the only subprocess it starts
    is the local [curl --version] check, so no network call is issued.
    This covers a blank username followed by end of input. *)
Theorem blank_credentials_no_network (json_loads : string -> option json) (w : world)
    (l1 : string) (rest : list string) :
  stdin w = l1 :: rest ->
  strip l1 = EmptyString \/
    (exists l2 rest', rest = l2 :: rest' /\ strip l2 = EmptyString) ->
  exit_status (snd (run json_loads w)) = 1%Z /\
  (forall argv, ran argv (fst (run json_loads w)) -> argv = ["curl"; "--version"]).
Proof.
  intros Hin Hblank.
  destruct Hblank as [E | [l2 [rest' [-> E]]]]; apply String.eqb_eq in E;
    unfold run; rewrite Hin;
    run_cases;
    (split; [reflexivity | intros argv Hr; unfold ran in Hr; simpl in Hr; intuition congruence]).
Qed.

(** The run does not look at what a best-effort step returns. *)
Lemma run_best_effort_irrelevant (json_loads : string -> option json) (w w' : world) :
  same_but_best_effort w w' -> run json_loads w' = run json_loads w.
Proof.
  intros [Hd He Hi Hp].
  unfold run. exec. rewrite Hd, He, Hi.
  run_cases_with ltac:(repeat match goal with
                              | |- context [proc w' ?a] => rewrite (Hp a) by reflexivity
                              end);
  reflexivity.
Qed.

Ltac close_unreached :=
  intros Hr; exfalso; unfold ran in Hr; cbn [In] in Hr;
  repeat (destruct Hr as [Hr|Hr]; [discriminate Hr|]); exact Hr.

Section CreationFailure.
Variable json_loads : string -> option json.
Variable w : world.
Variables l1 l2 : string.
Variable rest : list string.
Hypothesis Hin : stdin w = l1 :: l2 :: rest.
Let creq := create_repo_cmd (strip l1) (strip l2).
Hypothesis Hfailed : creation_failed (proc w creq) = true.

Lemma failure_exit_1 :
  ran creq (fst (run json_loads w)) -> exit_status (snd (run json_loads w)) = 1%Z.
Proof.
  unfold creq in *. unfold run. rewrite Hin.
  run_cases; first [intros; reflexivity | close_unreached].
Qed.

Lemma failure_undecodable :
  json_loads (stdout (proc w creq)) = None ->
  ran creq (fst (run json_loads w)) ->
  snd (run json_loads w) = Some (Exn "JSONDecodeError") /\
  last_event (fst (run json_loads w)) = Some (ERun creq).
Proof.
  unfold creq in *. intros Hload. unfold run. rewrite Hin.
  run_cases_with ltac:(rewrite ?Hload);
    first [intros; split; reflexivity | close_unreached].
Qed.

Lemma failure_classified (m : list (string * json)) :
  json_loads (stdout (proc w creq)) = Some (JObj m) ->
  message_field_ok m ->
  ran creq (fst (run json_loads w)) ->
  snd (run json_loads w) = Some (SysExit 1) /\
  last_event (fst (run json_loads w)) =
    Some (EPrint (classified_message (strip l1) (message_text m))).
Proof.
  unfold creq in *. intros Hload [Hlook | [msg Hlook]];
    unfold message_text; rewrite Hlook; unfold run; rewrite Hin;
    run_cases_with ltac:(rewrite ?Hload, ?Hlook);
    first [ close_unreached
          | intros _; split; [reflexivity|];
            unfold classified_message;
            repeat match goal with
                   | H : String.eqb _ _ = _ |- _ => rewrite H
                   | H : contains _ _ = _ |- _ => rewrite H
                   end;
            reflexivity ].
Qed.

End CreationFailure.

(** C1: the exit status is 0 exactly on full success and 1 otherwise
    (missing [curl], blank input, failed creation, failed main push, and
    the other aborts); what the best-effort steps return (adding the
    remote, pushing gh-pages, tagging topics) never changes it. *)
Theorem exit_status_cases (json_loads : string -> option json) (w : world) :
  (exit_status (snd (run json_loads w)) = 0%Z <-> full_success w = true) /\
  (full_success w = false -> exit_status (snd (run json_loads w)) = 1%Z) /\
  (forall w', same_but_best_effort w w' ->
     exit_status (snd (run json_loads w')) = exit_status (snd (run json_loads w))).
Proof.
  split; [|split].
  - unfold full_success, run. run_cases; split; intro; solve [reflexivity | discriminate].
  - unfold full_success, run. run_cases; intro; solve [reflexivity | discriminate].
  - intros w' Hw. rewrite (run_best_effort_irrelevant json_loads w w' Hw). reflexivity.
Qed.

Ltac in_trace := vm_compute; repeat first [left; reflexivity | right].

Ltac no_failure_line :=
  intros line Hp; unfold printed in Hp; vm_compute in Hp;
  repeat (destruct Hp as [Hp|Hp];
          [first [discriminate Hp | injection Hp as <-; reflexivity] |]);
  contradiction.

(** C3 (amended): when the creation response is taken as a failure and its
    body decodes to a JSON object whose message field is absent or a
    string, the run exits with 1 and its last output is the invalid-token
    message when the message is [Bad credentials], else the already-exists
    message naming [username/repo] when it contains [already exists], else
    [Error: <message>] ([Unknown error] when absent). *)
Theorem creation_failure_classification (json_loads : string -> option json) (w : world)
    (l1 l2 : string) (rest : list string) (m : list (string * json)) :
  stdin w = l1 :: l2 :: rest ->
  ran (create_repo_cmd (strip l1) (strip l2)) (fst (run json_loads w)) ->
  creation_failed (proc w (create_repo_cmd (strip l1) (strip l2))) = true ->
  json_loads (stdout (proc w (create_repo_cmd (strip l1) (strip l2)))) = Some (JObj m) ->
  message_field_ok m ->
  exit_status (snd (run json_loads w)) = 1%Z /\
  last_event (fst (run json_loads w)) =
    Some (EPrint (classified_message (strip l1) (message_text m))).
Proof.
  intros Hin Hran Hf Hload Hok.
  destruct (failure_classified json_loads w l1 l2 rest Hin Hf m Hload Hok Hran) as [E1 E2].
  rewrite E1. split; [reflexivity | exact E2].
Qed.

Lemma creation_failure_classification_witness :
  let w := w_bad_credentials in
  let m := [("message", JStr "Bad credentials"); ("status", JStr "401")] in
  exit_status (snd (run loads w)) = 1%Z /\
  last_event (fst (run loads w)) = Some (EPrint (classified_message "alice" (message_text m))).
Proof.
  intros w m.
  apply (creation_failure_classification loads w " alice " "ghp_token" [] m).
  - reflexivity.
  - unfold ran. in_trace.
  - vm_compute. reflexivity.
  - vm_compute. reflexivity.
  - right. exists "Bad credentials". reflexivity.
Defined.

(** C3 fails with a message field that is not a string: the body
    [{"message": 42}] makes [in] raise [TypeError], and no error line at
    all is printed. *)
Lemma numeric_message_crashes :
  snd (run loads w_numeric_message) = Some (Exn "TypeError") /\
  (forall line, printed line (fst (run loads w_numeric_message)) ->
     starts_with "❌" line = false).
Proof.
  split.
  - vm_compute. reflexivity.
  - no_failure_line.
Qed.

(** C4 (amended): a failed creation always ends the run with exit status 1;
    when the body decodes to a JSON object whose message is absent or a
    string the last output is one of the three messages; when the body
    does not decode (empty, non-JSON, malformed), the run stops with an
    uncaught [JSONDecodeError] right after the POST, printing none of them. *)
Theorem creation_failure_aborts (json_loads : string -> option json) (w : world)
    (l1 l2 : string) (rest : list string) :
  stdin w = l1 :: l2 :: rest ->
  ran (create_repo_cmd (strip l1) (strip l2)) (fst (run json_loads w)) ->
  creation_failed (proc w (create_repo_cmd (strip l1) (strip l2))) = true ->
  exit_status (snd (run json_loads w)) = 1%Z /\
  (forall m, json_loads (stdout (proc w (create_repo_cmd (strip l1) (strip l2)))) = Some (JObj m) ->
     message_field_ok m ->
     last_event (fst (run json_loads w)) =
       Some (EPrint (classified_message (strip l1) (message_text m)))) /\
  (json_loads (stdout (proc w (create_repo_cmd (strip l1) (strip l2)))) = None ->
     snd (run json_loads w) = Some (Exn "JSONDecodeError") /\
     last_event (fst (run json_loads w)) = Some (ERun (create_repo_cmd (strip l1) (strip l2)))).
Proof.
  intros Hin Hran Hf. split; [|split].
  - exact (failure_exit_1 json_loads w l1 l2 rest Hin Hf Hran).
  - intros m Hload Hok.
    exact (proj2 (failure_classified json_loads w l1 l2 rest Hin Hf m Hload Hok Hran)).
  - intros Hload. exact (failure_undecodable json_loads w l1 l2 rest Hin Hf Hload Hran).
Qed.

Lemma creation_failure_aborts_witness :
  exit_status (snd (run loads w_no_connection)) = 1%Z /\
  snd (run loads w_no_connection) = Some (Exn "JSONDecodeError").
Proof.
  destruct (creation_failure_aborts loads w_no_connection " alice " "ghp_token" [])
    as [E1 [_ E3]].
  - reflexivity.
  - unfold ran. in_trace.
  - vm_compute. reflexivity.
  - split; [exact E1 | exact (proj1 (E3 eq_refl))].
Defined.

(** C4 fails on an empty body: [curl] exits with 7 and prints nothing, the
    decoder raises, and none of the three messages is printed. *)
Lemma empty_body_crashes :
  snd (run loads w_no_connection) = Some (Exn "JSONDecodeError") /\
  (forall line, printed line (fst (run loads w_no_connection)) ->
     starts_with "❌" line = false).
Proof.
  split.
  - vm_compute. reflexivity.
  - no_failure_line.
Qed.

(** Membership in a computed trace that still holds symbolic strings. *)
Ltac in_sym_trace :=
  cbn [In]; repeat first [left; reflexivity | right].

(** Close the final goal of a case: the event [ERun argv] is one of the
    events of the computed trace; keep the case where it is the request
    [is_req] accepts. *)
Ltac pick_run Hr Hreq :=
  unfold ran in Hr; simpl in Hr;
  repeat destruct Hr as [Hr|Hr]; try contradiction; try discriminate Hr;
  injection Hr as <-; try (cbv in Hreq; discriminate Hreq).

(** C5: the creation POST is issued once, only with both inputs
    non-blank, and its body is the JSON of the fixed descriptor: the fixed
    name and description, the homepage [https://<username>.github.io/<repo>/],
    public, issues and projects on, wiki and auto_init off. *)
Theorem creation_request_body (json_loads : string -> option json) (w : world)
    (argv : list string) :
  ran argv (fst (run json_loads w)) -> is_post argv = true ->
  posts (fst (run json_loads w)) = [argv] /\
  exists l1 l2 rest, stdin w = l1 :: l2 :: rest /\
    strip l1 <> EmptyString /\ strip l2 <> EmptyString /\
    argv = create_repo_cmd (strip l1) (strip l2) /\
    last argv EmptyString =
      dumps (JObj [("name", JStr "review-insights-platform");
                   ("description", JStr "AI-powered review management platform with zero-config setup");
                   ("homepage", JStr ("https://" ++ strip l1 ++ ".github.io/review-insights-platform/"));
                   ("private", JBool false);
                   ("has_issues", JBool true);
                   ("has_projects", JBool true);
                   ("has_wiki", JBool false);
                   ("auto_init", JBool false)]).
Proof.
  intros Hr Hpost. revert Hr. unfold run.
  run_cases; intros Hr; pick_run Hr Hpost;
    (split; [reflexivity|]);
    do 3 eexists; (split; [reflexivity|]);
    repeat split; try reflexivity; apply String.eqb_neq; assumption.
Qed.

Lemma creation_request_body_witness :
  ran (create_repo_cmd "alice" "ghp_token") (fst (run loads w_success)) /\
  posts (fst (run loads w_success)) = [create_repo_cmd "alice" "ghp_token"].
Proof.
  assert (Hr : ran (create_repo_cmd "alice" "ghp_token") (fst (run loads w_success)))
    by (unfold ran; in_trace).
  split; [exact Hr|].
  exact (proj1 (creation_request_body loads w_success _ Hr eq_refl)).
Defined.

(** C6: when the main branch push exits non-zero, the run prints the
    push's stderr and a recovery command embedding username, token and
    repository in the remote URL, ends with [git push -u origin main] and
    exit status 1, and never sends the topics PUT. *)
Theorem push_failure_recovery (json_loads : string -> option json) (w : world)
    (l1 l2 : string) (rest : list string) :
  stdin w = l1 :: l2 :: rest ->
  has_exe w "git" = true ->
  ran push_main_cmd (fst (run json_loads w)) ->
  returncode (proc w push_main_cmd) <> 0%Z ->
  snd (run json_loads w) = Some (SysExit 1) /\
  printed ("❌ Push failed: " ++ stderr (proc w push_main_cmd)) (fst (run json_loads w)) /\
  printed ("git remote set-url origin https://" ++ strip l1 ++ ":" ++ strip l2
           ++ "@github.com/" ++ strip l1 ++ "/review-insights-platform.git")
          (fst (run json_loads w)) /\
  last_event (fst (run json_loads w)) = Some (EPrint "git push -u origin main") /\
  puts (fst (run json_loads w)) = [].
Proof.
  intros Hin Hgit Hr Hrc. revert Hr. unfold run. rewrite Hin.
  apply Z.eqb_neq in Hrc.
  run_cases; first
    [ close_unreached
    | intros _; repeat split; try reflexivity;
      unfold printed; in_sym_trace ].
Qed.

Lemma push_failure_recovery_witness :
  snd (run loads w_push_rejected) = Some (SysExit 1) /\
  last_event (fst (run loads w_push_rejected)) = Some (EPrint "git push -u origin main").
Proof.
  destruct (push_failure_recovery loads w_push_rejected " alice " "ghp_token" [])
    as [E1 [_ [_ [E4 _]]]].
  - reflexivity.
  - reflexivity.
  - unfold ran. in_trace.
  - vm_compute. discriminate.
  - split; assumption.
Defined.

(** C7: after a successful creation, the remote add and a main push
    exiting with 0, the run exits with 0 and prints the repository URL
    [https://github.com/<username>/<repo>] and the pages URL
    [https://<username>.github.io/<repo>/]. *)
Theorem success_summary (json_loads : string -> option json) (w : world)
    (l1 l2 : string) (rest : list string) :
  stdin w = l1 :: l2 :: rest ->
  creation_failed (proc w (create_repo_cmd (strip l1) (strip l2))) = false ->
  ran (remote_add_cmd (strip l1)) (fst (run json_loads w)) ->
  has_exe w "git" = true ->
  returncode (proc w push_main_cmd) = 0%Z ->
  exit_status (snd (run json_loads w)) = 0%Z /\
  printed ("📁 Repository: " ++ ("https://github.com/" ++ strip l1 ++ "/review-insights-platform"))
          (fst (run json_loads w)) /\
  printed ("📄 Deploy Page: " ++ ("https://" ++ strip l1 ++ ".github.io/review-insights-platform/"))
          (fst (run json_loads w)).
Proof.
  intros Hin Hok Hr Hgit Hrc. revert Hr. unfold run. rewrite Hin.
  apply Z.eqb_eq in Hrc.
  run_cases; first
    [ close_unreached
    | intros _; repeat split; try reflexivity;
      unfold printed; in_sym_trace ].
Qed.

Lemma success_summary_witness :
  exit_status (snd (run loads w_success)) = 0%Z /\
  printed ("📁 Repository: " ++ ("https://github.com/" ++ "alice" ++ "/review-insights-platform"))
          (fst (run loads w_success)).
Proof.
  destruct (success_summary loads w_success " alice " "ghp_token" []) as [E1 [E2 _]].
  - reflexivity.
  - vm_compute. reflexivity.
  - unfold ran. in_trace.
  - reflexivity.
  - reflexivity.
  - split; assumption.
Defined.

Lemma exit_status_cases_witness :
  exit_status (snd (run loads w_push_rejected)) = 1%Z.
Proof.
  apply (proj1 (proj2 (exit_status_cases loads w_push_rejected))).
  vm_compute. reflexivity.
Defined.

(** C9: the first event of every run is the change to the fixed working
    directory, and no other change of directory follows. *)
Theorem chdir_first (json_loads : string -> option json) (w : world) :
  exists rest, fst (run json_loads w) = EChdir "/home/david/review-analysis-saas" :: rest /\
               forallb (fun e => negb (is_chdir e)) rest = true.
Proof.
  unfold run. run_cases; eexists; split; reflexivity.
Qed.

(** The order search for [precedes] on a computed trace. *)
Ltac find_precedes :=
  repeat first
    [ solve [apply precedes_here; simpl; repeat first [left; reflexivity | right]]
    | apply precedes_later ].

(** C8: at most one topics PUT and at most one creation POST per run; a
    PUT is sent only after the main push, which then exited with 0, and its
    body is the JSON of the fixed ordered list of topic names. *)
Theorem topics_once_after_push (json_loads : string -> option json) (w : world) :
  length (puts (fst (run json_loads w))) <= 1 /\
  length (posts (fst (run json_loads w))) <= 1 /\
  (forall argv, ran argv (fst (run json_loads w)) -> is_put argv = true ->
     precedes (ERun push_main_cmd) (ERun argv) (fst (run json_loads w)) /\
     returncode (proc w push_main_cmd) = 0%Z /\
     last argv EmptyString =
       dumps (JObj [("names", JArr [JStr "ai"; JStr "review-management"; JStr "saas";
                                    JStr "typescript"; JStr "nextjs";
                                    JStr "sentiment-analysis"; JStr "zero-config"])])).
Proof.
  unfold run.
  run_cases;
    (split; [apply Nat.leb_le; reflexivity|]);
    (split; [apply Nat.leb_le; reflexivity|]);
    intros argv Hr Hput; pick_run Hr Hput;
    (split; [find_precedes|]);
    (split; [apply Z.eqb_eq; assumption | reflexivity]).
Qed.

Lemma topics_once_after_push_witness :
  precedes (ERun push_main_cmd) (ERun (topics_cmd "alice" "ghp_token"))
           (fst (run loads w_success)).
Proof.
  destruct (topics_once_after_push loads w_success) as [_ [_ H]].
  apply (H (topics_cmd "alice" "ghp_token")).
  - unfold ran. in_trace.
  - reflexivity.
Defined.

Lemma creation_failed_false_iff (r : proc_result) :
  creation_failed r = false <->
  returncode r = 0%Z /\ contains message_key (stdout r) = false.
Proof.
  unfold creation_failed. rewrite Bool.orb_false_iff, Bool.negb_false_iff, Z.eqb_eq.
  reflexivity.
Qed.

Section CreationTest.
Variable json_loads : string -> option json.
Variable w : world.
Variables l1 l2 : string.
Variable rest : list string.
Hypothesis Hin : stdin w = l1 :: l2 :: rest.
Let creq := create_repo_cmd (strip l1) (strip l2).

Lemma success_line_iff :
  ran creq (fst (run json_loads w)) ->
  (printed "✅ Repository created successfully!" (fst (run json_loads w)) <->
   creation_failed (proc w creq) = false).
Proof.
  unfold creq in *. unfold run. rewrite Hin.
  run_cases; first
    [ close_unreached
    | intros _; split;
      first
        [ discriminate
        | reflexivity
        | intros Hp; unfold printed in Hp; cbn [In] in Hp;
          repeat (destruct Hp as [Hp|Hp]; [discriminate Hp|]); contradiction
        | intros _; unfold printed; in_sym_trace ] ].
Qed.

Lemma success_path_no_parse :
  creation_failed (proc w creq) = false ->
  forall other, run other w = run json_loads w.
Proof.
  unfold creq in *. intros Hok other. unfold run. rewrite Hin.
  run_cases; reflexivity.
Qed.

End CreationTest.

(** C10: with the creation POST sent, the success line is printed exactly
    when [curl] exited with 0 and the body does not contain the quoted key
    [message]; on that path the decoder is never consulted (any decoder
    gives the same run); a zero-exit response whose body contains the key
    goes to the failure branch: no success line, exit status 1, and an
    undecodable body raises [JSONDecodeError]. *)
Theorem creation_success_test (json_loads : string -> option json) (w : world)
    (l1 l2 : string) (rest : list string) :
  stdin w = l1 :: l2 :: rest ->
  ran (create_repo_cmd (strip l1) (strip l2)) (fst (run json_loads w)) ->
  (printed "✅ Repository created successfully!" (fst (run json_loads w)) <->
   returncode (proc w (create_repo_cmd (strip l1) (strip l2))) = 0%Z /\
   contains message_key (stdout (proc w (create_repo_cmd (strip l1) (strip l2)))) = false) /\
  (creation_failed (proc w (create_repo_cmd (strip l1) (strip l2))) = false ->
   forall other, run other w = run json_loads w) /\
  (returncode (proc w (create_repo_cmd (strip l1) (strip l2))) = 0%Z ->
   contains message_key (stdout (proc w (create_repo_cmd (strip l1) (strip l2)))) = true ->
   exit_status (snd (run json_loads w)) = 1%Z /\
   ~ printed "✅ Repository created successfully!" (fst (run json_loads w)) /\
   (json_loads (stdout (proc w (create_repo_cmd (strip l1) (strip l2)))) = None ->
    snd (run json_loads w) = Some (Exn "JSONDecodeError"))).
Proof.
  intros Hin Hr.
  pose proof (success_line_iff json_loads w l1 l2 rest Hin Hr) as Hline.
  split; [rewrite Hline; apply creation_failed_false_iff|].
  split; [apply success_path_no_parse with (1 := Hin)|].
  intros Hrc Hmsg.
  assert (Hf : creation_failed (proc w (create_repo_cmd (strip l1) (strip l2))) = true)
    by (unfold creation_failed; rewrite Hrc, Hmsg; reflexivity).
  split; [exact (failure_exit_1 json_loads w l1 l2 rest Hin Hf Hr)|].
  split; [rewrite Hline, Hf; discriminate|].
  intros Hload. exact (proj1 (failure_undecodable json_loads w l1 l2 rest Hin Hf Hload Hr)).
Qed.

Lemma creation_success_test_witness :
  printed "✅ Repository created successfully!" (fst (run loads w_success)) /\
  (forall other, run other w_success = run loads w_success).
Proof.
  destruct (creation_success_test loads w_success " alice " "ghp_token" [])
    as [[_ E1] [E2 _]].
  - reflexivity.
  - unfold ran. in_trace.
  - split; [apply E1; split; vm_compute; reflexivity | apply E2; vm_compute; reflexivity].
Defined.

Lemma blank_credentials_no_network_witness :
  exit_status (snd (run loads w_blank_user)) = 1%Z /\
  (forall argv, ran argv (fst (run loads w_blank_user)) -> argv = ["curl"; "--version"]).
Proof.
  apply (blank_credentials_no_network loads w_blank_user "   " ["ghp_token"]).
  - reflexivity.
  - left. reflexivity.
Defined.

(* ------------------------------------------------------------------ *)
(** ** Further properties of [main] *)

(** Split boolean hypotheses [a && b = true] and [negb a = true]. *)
Ltac split_bools :=
  repeat match goal with
         | H : (_ && _) = true |- _ => apply andb_prop in H; destruct H
         | H : negb _ = true |- _ => apply Bool.negb_true_iff in H
         end.

(** Close [ran argv tr -> argv = a] for a computed trace whose only run is [a]. *)
Ltac only_run :=
  intros ? Hr; unfold ran in Hr; cbn [In] in Hr;
  repeat (destruct Hr as [Hr|Hr];
          [first [discriminate Hr | injection Hr as <-; reflexivity] |]);
  contradiction.

Lemma existsb_eq_str_in (s : string) (l : list json) :
  existsb (fun x => eq_str x s) l = true <-> In (JStr s) l.
Proof.
  induction l as [|x l IH]; simpl; [split; [discriminate | contradiction]|].
  rewrite Bool.orb_true_iff, IH.
  assert (Hx : eq_str x s = true <-> x = JStr s).
  { destruct x; simpl; try (split; discriminate).
    rewrite String.eqb_eq. split; [intros ->; reflexivity | intros H; injection H; auto]. }
  rewrite Hx. split; intros [H|H]; auto.
Qed.

Lemma existsb_key_in (s : string) (m : list (string * json)) :
  existsb (fun kv => String.eqb (fst kv) s) m = true <-> In s (map fst m).
Proof.
  induction m as [|[k v] m IH]; simpl; [split; [discriminate | contradiction]|].
  rewrite Bool.orb_true_iff, IH, String.eqb_eq.
  split; intros [H|H]; auto.
Qed.

(** [curl] missing or [curl --version] failing: the bare [except] prints
    the error line and exits with 1; nothing else is run and no prompt is
    shown. *)
Theorem curl_unavailable_aborts (json_loads : string -> option json) (w : world) :
  dir_exists w project_dir = true ->
  has_exe w "curl" = false \/ returncode (proc w ["curl"; "--version"]) <> 0%Z ->
  snd (run json_loads w) = Some (SysExit 1) /\
  last_event (fst (run json_loads w)) =
    Some (EPrint "❌ Error: curl is required but not installed") /\
  runs (fst (run json_loads w)) = [["curl"; "--version"]] /\
  input_prompts (fst (run json_loads w)) = [].
Proof.
  intros Hd Hc.
  assert (Hc' : has_exe w "curl" = false \/
                (returncode (proc w ["curl"; "--version"]) =? 0)%Z = false)
    by (destruct Hc as [H|H]; [left | right; apply Z.eqb_neq]; exact H).
  clear Hc. destruct Hc' as [Hc|Hc]; unfold run;
    run_cases; repeat split; reflexivity.
Qed.

Lemma curl_unavailable_aborts_witness :
  snd (run loads w_no_curl) = Some (SysExit 1) /\
  runs (fst (run loads w_no_curl)) = [["curl"; "--version"]].
Proof.
  destruct (curl_unavailable_aborts loads w_no_curl) as [E1 [_ [E3 _]]].
  - reflexivity.
  - left. reflexivity.
  - split; assumption.
Defined.

(** Fewer than two lines of input: exit status 1 and no command beyond
    [curl --version]. *)
Theorem short_stdin_no_network (json_loads : string -> option json) (w : world) :
  length (stdin w) < 2 ->
  exit_status (snd (run json_loads w)) = 1%Z /\
  (forall argv, ran argv (fst (run json_loads w)) -> argv = ["curl"; "--version"]).
Proof.
  intros Hlen. destruct (stdin w) as [|l1 [|l2 rest]] eqn:Hin;
    [| | simpl in Hlen; lia];
    unfold run; rewrite Hin; run_cases; (split; [reflexivity | only_run]).
Qed.

Lemma short_stdin_no_network_witness :
  exit_status (snd (run loads w_one_line)) = 1%Z.
Proof.
  apply (short_stdin_no_network loads w_one_line). simpl. lia.
Defined.

(** Input ending before the token line (with a non-blank username, or
    before any line) makes [input] raise [EOFError], uncaught. *)
Theorem eof_before_token (json_loads : string -> option json) (w : world) :
  setup_ok w = true ->
  stdin w = [] \/ (exists l, stdin w = [l] /\ strip l <> EmptyString) ->
  snd (run json_loads w) = Some (Exn "EOFError").
Proof.
  intros Hs Hin. unfold setup_ok in Hs. split_bools.
  destruct Hin as [Hin | [l [Hin Hl]]];
    [| apply String.eqb_neq in Hl];
    unfold run; rewrite Hin; run_cases; reflexivity.
Qed.

Lemma eof_before_token_witness :
  snd (run loads w_one_line) = Some (Exn "EOFError").
Proof.
  apply (eof_before_token loads w_one_line).
  - reflexivity.
  - right. exists "alice". split; [reflexivity | discriminate].
Defined.

(** A blank username stops the run with [Username is required!] before
    the token prompt. *)
Theorem blank_username_stops (json_loads : string -> option json) (w : world)
    (l1 : string) (rest : list string) :
  setup_ok w = true -> stdin w = l1 :: rest -> strip l1 = EmptyString ->
  snd (run json_loads w) = Some (SysExit 1) /\
  last_event (fst (run json_loads w)) = Some (EPrint "❌ Username is required!") /\
  input_prompts (fst (run json_loads w)) = ["GitHub username: "].
Proof.
  intros Hs Hin Hb. unfold setup_ok in Hs. split_bools.
  apply String.eqb_eq in Hb.
  unfold run. rewrite Hin. run_cases; repeat split; reflexivity.
Qed.

Lemma blank_username_stops_witness :
  last_event (fst (run loads w_blank_user)) = Some (EPrint "❌ Username is required!").
Proof.
  destruct (blank_username_stops loads w_blank_user "   " ["ghp_token"]) as [_ [E _]].
  - reflexivity.
  - reflexivity.
  - reflexivity.
  - exact E.
Defined.

(** A blank token after a non-blank username stops the run with [Token is
    required!] after both prompts, before any request. *)
Theorem blank_token_stops (json_loads : string -> option json) (w : world)
    (l1 l2 : string) (rest : list string) :
  setup_ok w = true -> stdin w = l1 :: l2 :: rest ->
  strip l1 <> EmptyString -> strip l2 = EmptyString ->
  snd (run json_loads w) = Some (SysExit 1) /\
  last_event (fst (run json_loads w)) = Some (EPrint "❌ Token is required!") /\
  input_prompts (fst (run json_loads w)) =
    ["GitHub username: "; "GitHub Personal Access Token: "] /\
  runs (fst (run json_loads w)) = [["curl"; "--version"]].
Proof.
  intros Hs Hin Hu Ht. unfold setup_ok in Hs. split_bools.
  apply String.eqb_neq in Hu. apply String.eqb_eq in Ht.
  unfold run. rewrite Hin. run_cases; repeat split; reflexivity.
Qed.

Lemma blank_token_stops_witness :
  last_event (fst (run loads w_blank_token)) = Some (EPrint "❌ Token is required!").
Proof.
  destruct (blank_token_stops loads w_blank_token "alice" "  " []) as [_ [E _]].
  - reflexivity.
  - reflexivity.
  - discriminate.
  - reflexivity.
  - exact E.
Defined.

(** Only the stripped first two lines of input matter: surrounding
    whitespace and any further lines do not change the run. *)
Theorem input_whitespace_irrelevant (json_loads : string -> option json) (w w' : world)
    (l1 l2 l1' l2' : string) (rest rest' : list string) :
  dir_exists w' = dir_exists w -> has_exe w' = has_exe w -> proc w' = proc w ->
  stdin w = l1 :: l2 :: rest -> stdin w' = l1' :: l2' :: rest' ->
  strip l1' = strip l1 -> strip l2' = strip l2 ->
  run json_loads w' = run json_loads w.
Proof.
  intros Hd He Hp Hin Hin' E1 E2.
  unfold run. exec. rewrite Hd, He, Hp, Hin, Hin'.
  run_cases_with ltac:(rewrite ?E1, ?E2); reflexivity.
Qed.

Lemma input_whitespace_irrelevant_witness :
  run loads w_spaced = run loads w_success.
Proof.
  apply (input_whitespace_irrelevant loads w_success w_spaced
           " alice " "ghp_token" "alice" " ghp_token  " [] ["extra"]);
    reflexivity.
Defined.

(** On full success the commands run are exactly, in order: the [curl]
    check, the creation POST, the remote add, the two pushes and the
    topics PUT; the run ends normally with the closing line. *)
Theorem full_success_commands (json_loads : string -> option json) (w : world)
    (l1 l2 : string) (rest : list string) :
  stdin w = l1 :: l2 :: rest -> full_success w = true ->
  runs (fst (run json_loads w)) =
    [["curl"; "--version"]; create_repo_cmd (strip l1) (strip l2);
     remote_add_cmd (strip l1); push_main_cmd; push_pages_cmd;
     topics_cmd (strip l1) (strip l2)] /\
  snd (run json_loads w) = None /\
  last_event (fst (run json_loads w)) =
    Some (EPrint "✨ Your Review Insights platform is ready to share!").
Proof.
  intros Hin Hf. unfold full_success in Hf. rewrite Hin in Hf. split_bools.
  unfold run. rewrite Hin. run_cases; repeat split; reflexivity.
Qed.

Lemma full_success_commands_witness :
  snd (run loads w_success) = None.
Proof.
  exact (proj1 (proj2 (full_success_commands loads w_success " alice " "ghp_token" []
                         eq_refl ltac:(vm_compute; reflexivity)))).
Defined.

(** [git] missing after a successful creation: the remote add raises
    [FileNotFoundError], uncaught, after the success line; the repository
    has been created but nothing is pushed. *)
Theorem git_missing_after_creation (json_loads : string -> option json) (w : world)
    (l1 l2 : string) (rest : list string) :
  stdin w = l1 :: l2 :: rest ->
  ran (create_repo_cmd (strip l1) (strip l2)) (fst (run json_loads w)) ->
  creation_failed (proc w (create_repo_cmd (strip l1) (strip l2))) = false ->
  has_exe w "git" = false ->
  snd (run json_loads w) = Some (Exn "FileNotFoundError") /\
  printed "✅ Repository created successfully!" (fst (run json_loads w)) /\
  last_event (fst (run json_loads w)) = Some (ERun (remote_add_cmd (strip l1))).
Proof.
  intros Hin Hr Hok Hgit. revert Hr. unfold run. rewrite Hin.
  run_cases; first
    [ close_unreached
    | intros _; split; [reflexivity|]; split; [unfold printed; in_sym_trace | reflexivity] ].
Qed.

Lemma git_missing_after_creation_witness :
  snd (run loads w_no_git) = Some (Exn "FileNotFoundError").
Proof.
  destruct (git_missing_after_creation loads w_no_git " alice " "ghp_token" []) as [E _].
  - reflexivity.
  - unfold ran. in_trace.
  - vm_compute. reflexivity.
  - reflexivity.
  - exact E.
Defined.

(** A failed main push: the commands run are the [curl] check, the POST,
    the remote add and the push; the gh-pages push is never attempted. *)
Theorem push_failure_commands (json_loads : string -> option json) (w : world)
    (l1 l2 : string) (rest : list string) :
  stdin w = l1 :: l2 :: rest ->
  has_exe w "git" = true ->
  ran push_main_cmd (fst (run json_loads w)) ->
  returncode (proc w push_main_cmd) <> 0%Z ->
  runs (fst (run json_loads w)) =
    [["curl"; "--version"]; create_repo_cmd (strip l1) (strip l2);
     remote_add_cmd (strip l1); push_main_cmd].
Proof.
  intros Hin Hgit Hr Hrc. revert Hr. unfold run. rewrite Hin.
  apply Z.eqb_neq in Hrc.
  run_cases; first [close_unreached | intros _; reflexivity].
Qed.

Lemma push_failure_commands_witness :
  runs (fst (run loads w_push_rejected)) =
    [["curl"; "--version"]; create_repo_cmd "alice" "ghp_token";
     remote_add_cmd "alice"; push_main_cmd].
Proof.
  apply (push_failure_commands loads w_push_rejected " alice " "ghp_token" []).
  - reflexivity.
  - reflexivity.
  - unfold ran. in_trace.
  - vm_compute. discriminate.
Defined.

(** A failed creation whose body decodes to something other than an
    object (list, string, number, boolean, null): [response.get] raises
    [AttributeError] right after the POST. *)
Theorem non_object_response (json_loads : string -> option json) (w : world)
    (l1 l2 : string) (rest : list string) (v : json) :
  stdin w = l1 :: l2 :: rest ->
  ran (create_repo_cmd (strip l1) (strip l2)) (fst (run json_loads w)) ->
  creation_failed (proc w (create_repo_cmd (strip l1) (strip l2))) = true ->
  json_loads (stdout (proc w (create_repo_cmd (strip l1) (strip l2)))) = Some v ->
  (forall m, v <> JObj m) ->
  snd (run json_loads w) = Some (Exn "AttributeError") /\
  last_event (fst (run json_loads w)) = Some (ERun (create_repo_cmd (strip l1) (strip l2))).
Proof.
  intros Hin Hr Hf Hload Hv. revert Hr.
  destruct v as [| | | | |m]; [| | | | | exfalso; exact (Hv m eq_refl)];
    unfold run; rewrite Hin;
    run_cases_with ltac:(rewrite ?Hload);
    first [close_unreached | intros _; split; reflexivity].
Qed.

Lemma non_object_response_witness :
  snd (run loads w_list_body) = Some (Exn "AttributeError").
Proof.
  destruct (non_object_response loads w_list_body " alice " "ghp_token" []
              (JArr [JStr "message"])) as [E _].
  - reflexivity.
  - unfold ran. in_trace.
  - vm_compute. reflexivity.
  - vm_compute. reflexivity.
  - discriminate.
  - exact E.
Defined.

(** A failed creation whose message is null, a boolean or a number: the
    [in] test of line 75 raises [TypeError]; nothing is printed after the
    POST. *)
Theorem scalar_message_type_error (json_loads : string -> option json) (w : world)
    (l1 l2 : string) (rest : list string) (m : list (string * json)) (v : json) :
  stdin w = l1 :: l2 :: rest ->
  ran (create_repo_cmd (strip l1) (strip l2)) (fst (run json_loads w)) ->
  creation_failed (proc w (create_repo_cmd (strip l1) (strip l2))) = true ->
  json_loads (stdout (proc w (create_repo_cmd (strip l1) (strip l2)))) = Some (JObj m) ->
  dict_lookup m "message" = Some v ->
  v = JNull \/ (exists b, v = JBool b) \/ (exists z, v = JNum z) ->
  snd (run json_loads w) = Some (Exn "TypeError") /\
  last_event (fst (run json_loads w)) = Some (ERun (create_repo_cmd (strip l1) (strip l2))).
Proof.
  intros Hin Hr Hf Hload Hlook Hv. revert Hr.
  destruct Hv as [-> | [[b ->] | [z ->]]];
    unfold run; rewrite Hin;
    run_cases_with ltac:(rewrite ?Hload, ?Hlook);
    first [close_unreached | intros _; split; reflexivity].
Qed.

Lemma scalar_message_type_error_witness :
  snd (run loads w_null_message) = Some (Exn "TypeError").
Proof.
  destruct (scalar_message_type_error loads w_null_message " alice " "ghp_token" []
              [("message", JNull)] JNull) as [E _].
  - reflexivity.
  - unfold ran. in_trace.
  - vm_compute. reflexivity.
  - vm_compute. reflexivity.
  - reflexivity.
  - left. reflexivity.
  - exact E.
Defined.

(** A failed creation whose message is a list: [in] is list membership,
    so the already-exists line is printed exactly when the list holds the
    string [already exists]; otherwise the error line shows the list's
    Python repr. The run exits with 1 either way. *)
Theorem list_message_membership (json_loads : string -> option json) (w : world)
    (l1 l2 : string) (rest : list string) (m : list (string * json)) (items : list json) :
  stdin w = l1 :: l2 :: rest ->
  ran (create_repo_cmd (strip l1) (strip l2)) (fst (run json_loads w)) ->
  creation_failed (proc w (create_repo_cmd (strip l1) (strip l2))) = true ->
  json_loads (stdout (proc w (create_repo_cmd (strip l1) (strip l2)))) = Some (JObj m) ->
  dict_lookup m "message" = Some (JArr items) ->
  snd (run json_loads w) = Some (SysExit 1) /\
  (In (JStr "already exists") items ->
   last_event (fst (run json_loads w)) = Some (EPrint (msg_exists (strip l1)))) /\
  (~ In (JStr "already exists") items ->
   last_event (fst (run json_loads w)) = Some (EPrint (msg_error (repr (JArr items))))).
Proof.
  intros Hin Hr Hf Hload Hlook. revert Hr. unfold run. rewrite Hin.
  run_cases_with ltac:(rewrite ?Hload, ?Hlook);
    first
      [ close_unreached
      | intros _; split; [reflexivity|];
        match goal with H : existsb _ items = _ |- _ => rename H into Hex end;
        split; intros HI;
        first
          [ reflexivity
          | exfalso; apply HI; apply existsb_eq_str_in; exact Hex
          | exfalso; apply existsb_eq_str_in in HI;
            assert (Hex' : existsb (fun x => eq_str x "already exists") items = false)
              by exact Hex;
            congruence ] ].
Qed.

Lemma list_message_membership_witness :
  last_event (fst (run loads w_list_message)) = Some (EPrint (msg_exists "alice")).
Proof.
  destruct (list_message_membership loads w_list_message " alice " "ghp_token" []
              [("message", JArr [JStr "already exists"])] [JStr "already exists"])
    as [_ [E _]].
  - reflexivity.
  - unfold ran. in_trace.
  - vm_compute. reflexivity.
  - vm_compute. reflexivity.
  - reflexivity.
  - apply E. left. reflexivity.
Defined.

(** A failed creation whose message is an object: [in] tests its keys, so
    the already-exists line is printed exactly when [already exists] is a
    key; otherwise the error line shows the object's Python repr. *)
Theorem dict_message_keys (json_loads : string -> option json) (w : world)
    (l1 l2 : string) (rest : list string) (m mm : list (string * json)) :
  stdin w = l1 :: l2 :: rest ->
  ran (create_repo_cmd (strip l1) (strip l2)) (fst (run json_loads w)) ->
  creation_failed (proc w (create_repo_cmd (strip l1) (strip l2))) = true ->
  json_loads (stdout (proc w (create_repo_cmd (strip l1) (strip l2)))) = Some (JObj m) ->
  dict_lookup m "message" = Some (JObj mm) ->
  snd (run json_loads w) = Some (SysExit 1) /\
  (In "already exists" (map fst mm) ->
   last_event (fst (run json_loads w)) = Some (EPrint (msg_exists (strip l1)))) /\
  (~ In "already exists" (map fst mm) ->
   last_event (fst (run json_loads w)) = Some (EPrint (msg_error (repr (JObj mm))))).
Proof.
  intros Hin Hr Hf Hload Hlook. revert Hr. unfold run. rewrite Hin.
  run_cases_with ltac:(rewrite ?Hload, ?Hlook);
    first
      [ close_unreached
      | intros _; split; [reflexivity|];
        match goal with H : existsb _ mm = _ |- _ => rename H into Hex end;
        split; intros HI;
        first
          [ reflexivity
          | exfalso; apply HI; apply existsb_key_in; exact Hex
          | exfalso; apply existsb_key_in in HI;
            assert (Hex' : existsb (fun kv => String.eqb (fst kv) "already exists") mm
                           = false) by exact Hex;
            congruence ] ].
Qed.

Lemma dict_message_keys_witness :
  last_event (fst (run loads w_dict_message)) =
    Some (EPrint (msg_error (repr (JObj [("code", JNum 1)])))).
Proof.
  destruct (dict_message_keys loads w_dict_message " alice " "ghp_token" []
              [("message", JObj [("code", JNum 1)])] [("code", JNum 1)])
    as [_ [_ E]].
  - reflexivity.
  - unfold ran. in_trace.
  - vm_compute. reflexivity.
  - vm_compute. reflexivity.
  - reflexivity.
  - apply E. simpl. intros [H|H]; [discriminate H | exact H].
Defined.

(** Where the token goes: two runs that differ only in the token line
    (both non-blank), with the API answering alike, agree event by event
    except for the creation POST, the topics PUT and the recovery line,
    and end alike. The token is printed nowhere else and never reaches a
    [git] command. *)
Theorem token_flow (json_loads : string -> option json) (w w' : world)
    (l1 l2 l2' : string) (rest rest' : list string) :
  dir_exists w' = dir_exists w -> has_exe w' = has_exe w ->
  stdin w = l1 :: l2 :: rest -> stdin w' = l1 :: l2' :: rest' ->
  strip l2 <> EmptyString -> strip l2' <> EmptyString ->
  proc w' (create_repo_cmd (strip l1) (strip l2')) =
    proc w (create_repo_cmd (strip l1) (strip l2)) ->
  proc w' (topics_cmd (strip l1) (strip l2')) = proc w (topics_cmd (strip l1) (strip l2)) ->
  (forall argv, is_post argv = false -> is_put argv = false -> proc w' argv = proc w argv) ->
  Forall2 (token_variant (strip l1) (strip l2) (strip l2'))
          (fst (run json_loads w)) (fst (run json_loads w')) /\
  snd (run json_loads w') = snd (run json_loads w).
Proof.
  intros Hd He Hin Hin' Ht Ht' Hpost Hput Hp.
  apply String.eqb_neq in Ht. apply String.eqb_neq in Ht'.
  unfold run. exec. rewrite Hd, He, Hin, Hin'.
  run_cases_with ltac:(rewrite ?Hpost, ?Hput;
                       repeat match goal with
                              | |- context [proc w' ?a] => rewrite (Hp a) by reflexivity
                              end;
                       repeat match goal with
                              | H : Some _ = Some _ |- _ => injection H; clear H; intros; subst
                              end);
    (split; [|reflexivity]);
    repeat (apply Forall2_cons;
            [ unfold token_variant;
              first [ left; reflexivity
                    | right; left; split; reflexivity
                    | right; right; left; split; reflexivity
                    | right; right; right; split; reflexivity ] |]);
    apply Forall2_nil.
Qed.

Lemma token_flow_witness :
  snd (run loads w_other_token) = snd (run loads w_success).
Proof.
  destruct (token_flow loads w_success w_other_token " alice " "ghp_token" "ghp_other" [] [])
    as [_ E].
  - reflexivity.
  - reflexivity.
  - reflexivity.
  - reflexivity.
  - discriminate.
  - discriminate.
  - vm_compute. reflexivity.
  - vm_compute. reflexivity.
  - intros argv _ _. reflexivity.
  - exact E.
Defined.

End Proofs.
